(** * A shallow embedding of the REQ socket of nanomsg (src/patterns/reqrep/req.c)

    The socket state [struct sp_req] is a record; every virtual function of
    the socket is a computation in a small state-and-abort monad over a
    [world], which holds the socket record, the state of its resend timer
    (as seen by the timer service) and the log of the calls the socket makes
    to its collaborators (allocator, raw XREQ socket, timer service).
    [sp_assert], [alloc_assert] and [errnum_assert] failing is [Abort]. *)

From Stdlib Require Import ZArith List Lia Bool.
From Stdlib Require Import Strings.Byte.
Import ListNotations.
Open Scope Z_scope.

(** ** Machine integers *)

Definition uint32 (z : Z) : Z := z mod 2 ^ 32.
Definition size_t (z : Z) : Z := z mod 2 ^ 64.

(** [sizeof (uint32_t)] and [sizeof (int)] on the targets of the library. *)
Definition sizeof_uint32_t : Z := 4.
Definition sizeof_int : Z := 4.

(** ** Wire helpers (utils/wire.h) *)

Definition byte_of_Z (z : Z) : byte :=
  match Byte.of_N (Z.to_N z) with Some b => b | None => x00 end.

Definition Z_of_byte (b : byte) : Z := Z.of_N (Byte.to_N b).

(** Modelled from the spec: [sp_putl] of utils/wire.h (not under src/),
    the 4-byte big-endian encoding of a 32-bit unsigned integer. *)
Definition sp_putl (v : Z) : list byte :=
  [ byte_of_Z (Z.land (Z.shiftr v 24) 255);
    byte_of_Z (Z.land (Z.shiftr v 16) 255);
    byte_of_Z (Z.land (Z.shiftr v 8) 255);
    byte_of_Z (Z.land v 255) ].

(** Modelled from the spec: [sp_getl] of utils/wire.h (not under src/),
    the big-endian decoding of the first 4 bytes of a buffer. *)
Definition sp_getl (buf : list byte) : Z :=
  let b i := Z_of_byte (nth i buf x00) in
  Z.lor (Z.shiftl (b 0%nat) 24)
    (Z.lor (Z.shiftl (b 1%nat) 16)
       (Z.lor (Z.shiftl (b 2%nat) 8) (b 3%nat))).

(** ** Return codes *)

Inductive errno : Type :=
| EAGAIN
| EFSM
| EINVAL
| ENOPROTOOPT
| EOTHER (n : Z).

(** An [int] return code: [0] or [-e]. *)
Inductive rc : Type :=
| RC_OK
| RC_ERR (e : errno).

Definition rc_ok_or_again (r : rc) : bool :=
  match r with
  | RC_OK | RC_ERR EAGAIN => true
  | _ => false
  end.

(** What [sp_xreq_recv] leaves behind: either an error code, or the bytes
    it wrote into the reply buffer and the length it stored in [*len]. *)
Inductive xrecv_res : Type :=
| XRECV_ERR (e : errno)
| XRECV_OK (reply : list byte) (replylen : Z).

(** ** The socket state (struct sp_req) *)

Definition SP_REQ_DEFAULT_RESEND_IVL : Z := 60000.
Definition SP_REQ_INPROGRESS : Z := 1.

(** Modelled from the spec: the option identifier [SP_RESEND_IVL] is
    declared in sp.h (not under src/); only its being one fixed value
    matters here. *)
Definition SP_RESEND_IVL : Z := 1.

Record sp_req : Type := mk_sp_req {
  reqid : Z;                    (* uint32_t *)
  flags : Z;                    (* uint32_t *)
  requestlen : Z;               (* size_t *)
  request : option (list byte); (* void *, None is NULL *)
  resend_ivl : Z                (* int *)
}.

Definition set_reqid (r : sp_req) (v : Z) : sp_req :=
  mk_sp_req v (flags r) (requestlen r) (request r) (resend_ivl r).
Definition set_flags (r : sp_req) (v : Z) : sp_req :=
  mk_sp_req (reqid r) v (requestlen r) (request r) (resend_ivl r).
Definition set_requestlen (r : sp_req) (v : Z) : sp_req :=
  mk_sp_req (reqid r) (flags r) v (request r) (resend_ivl r).
Definition set_request (r : sp_req) (v : option (list byte)) : sp_req :=
  mk_sp_req (reqid r) (flags r) (requestlen r) v (resend_ivl r).
Definition set_resend_ivl (r : sp_req) (v : Z) : sp_req :=
  mk_sp_req (reqid r) (flags r) (requestlen r) (request r) v.

Definition in_progress (r : sp_req) : bool :=
  negb (Z.land (flags r) SP_REQ_INPROGRESS =? 0).

(** ** Collaborators and the monad *)

(** The heap buffers the socket owns. *)
Inductive bufid : Type := BUF_REQUEST | BUF_REPLY.

(** Calls made by the socket to its collaborators. *)
Inductive event : Type :=
| EvAlloc (b : bufid) (n : Z)
| EvFree (b : bufid)
| EvXreqSend (buf : list byte) (len : Z)
| EvTimerStart (ivl : Z)
| EvTimerCancel.

Record world : Type := mk_world {
  req : sp_req;
  armed : option Z;   (* the resend timer is pending, with this interval *)
  calls : list event
}.

Inductive outcome (A : Type) : Type :=
| Done (a : A) (w : world)
| Abort.
Arguments Done {A} a w.
Arguments Abort {A}.

Definition M (A : Type) : Type := world -> outcome A.

Definition ret {A} (a : A) : M A := fun w => Done a w.
Definition bind {A B} (m : M A) (k : A -> M B) : M B :=
  fun w => match m w with Done a w' => k a w' | Abort => Abort end.

Notation "'do' x <- m ;; k" := (bind m (fun x => k))
  (at level 200, x name, m at level 100, k at level 200).

Definition get_req : M sp_req := fun w => Done (req w) w.
Definition modify_req (f : sp_req -> sp_req) : M unit :=
  fun w => Done tt (mk_world (f (req w)) (armed w) (calls w)).
Definition emit (e : event) : M unit :=
  fun w => Done tt (mk_world (req w) (armed w) (calls w ++ [e])).
Definition sp_assert (b : bool) : M unit :=
  fun w => if b then Done tt w else Abort.

(** Allocation is taken to succeed ([alloc_assert] never fires). *)
Definition sp_alloc (b : bufid) (n : Z) : M unit := emit (EvAlloc b n).
Definition sp_free (b : bufid) : M unit := emit (EvFree b).

Definition sp_sockbase_timer_start (ivl : Z) : M unit :=
  fun w => Done tt (mk_world (req w) (Some ivl) (calls w ++ [EvTimerStart ivl])).
Definition sp_sockbase_timer_cancel : M unit :=
  fun w => Done tt (mk_world (req w) None (calls w ++ [EvTimerCancel])).

(** [sp_xreq_send]: the call is logged, its return code is the input [x]. *)
Definition sp_xreq_send (buf : option (list byte)) (len : Z) (x : rc) : M rc :=
  do _ <- emit (EvXreqSend (match buf with Some b => b | None => [] end) len);;
  ret x.

(** ** The socket's functions *)

(** [sp_req_init]; [rnd] is the 32-bit value [sp_random_generate] stores
    into [reqid]. The call to [sp_xreq_init] is not modelled. *)
Definition sp_req_init (rnd : Z) : sp_req :=
  let r := mk_sp_req rnd 0 0 None 0 in
  let r := set_reqid r (Z.land (reqid r) 0x7fffffff) in
  let r := set_flags r 0 in
  let r := set_requestlen r 0 in
  let r := set_request r None in
  set_resend_ivl r SP_REQ_DEFAULT_RESEND_IVL.


(** [sp_req_send]; [x] is what [sp_xreq_send] returns. *)
Definition sp_req_send (buf : list byte) (x : rc) : M rc :=
  do r <- get_req;;
  do _ <- (if in_progress r then
             do _ <- sp_free BUF_REQUEST;;
             do _ <- modify_req (fun r => set_requestlen r 0);;
             do _ <- modify_req (fun r => set_request r None);;
             do _ <- modify_req (fun r =>
                       set_flags r (Z.land (flags r) (Z.lnot SP_REQ_INPROGRESS)));;
             sp_sockbase_timer_cancel
           else ret tt);;
  do _ <- modify_req (fun r => set_reqid r (uint32 (reqid r + 1)));;
  do _ <- modify_req (fun r => set_reqid r (Z.land (reqid r) 0x7fffffff));;
  do _ <- modify_req (fun r =>
            set_requestlen r (size_t (sizeof_uint32_t + Z.of_nat (length buf))));;
  do r <- get_req;;
  do _ <- sp_alloc BUF_REQUEST (requestlen r);;
  do _ <- modify_req (fun r =>
            set_request r (Some (sp_putl (Z.lor (reqid r) 0x80000000) ++ buf)));;
  do r <- get_req;;
  do x' <- sp_xreq_send (request r) (requestlen r) x;;
  do _ <- sp_assert (rc_ok_or_again x');;
  do _ <- modify_req (fun r => set_flags r (Z.lor (flags r) SP_REQ_INPROGRESS));;
  do r <- get_req;;
  do _ <- sp_sockbase_timer_start (resend_ivl r);;
  ret RC_OK.

(** [sp_req_recv]; [len] is the caller's [*len], [xrecv] is the raw XREQ
    socket, called with the size of the reply buffer. The result is the
    return code, the bytes written to the caller's [buf] and the final
    [*len]. *)
Definition sp_req_recv (len : Z) (xrecv : Z -> xrecv_res)
  : M (rc * list byte * Z) :=
  do r <- get_req;;
  if negb (in_progress r) then ret (RC_ERR EFSM, [], len) else
  let replylen := size_t (sizeof_uint32_t + len) in
  do _ <- sp_alloc BUF_REPLY replylen;;
  match xrecv replylen with
  | XRECV_ERR EAGAIN =>
      do _ <- sp_free BUF_REPLY;; ret (RC_ERR EAGAIN, [], len)
  | XRECV_ERR e =>
      do _ <- sp_assert false;; ret (RC_ERR e, [], len)
  | XRECV_OK reply replylen =>
      if replylen <? sizeof_uint32_t then
        do _ <- sp_free BUF_REPLY;; ret (RC_ERR EAGAIN, [], len)
      else
      let id := sp_getl reply in
      if Z.land id 0x80000000 =? 0 then
        do _ <- sp_free BUF_REPLY;; ret (RC_ERR EAGAIN, [], len)
      else
      let id := Z.land id 0x7fffffff in
      if negb (id =? reqid r) then
        do _ <- sp_free BUF_REPLY;; ret (RC_ERR EAGAIN, [], len)
      else
      let n := if len <? replylen - sizeof_uint32_t
               then len else replylen - sizeof_uint32_t in
      let out := firstn (Z.to_nat n) (skipn 4 reply) in
      let len' := replylen - sizeof_uint32_t in
      do _ <- sp_sockbase_timer_cancel;;
      do _ <- sp_free BUF_REPLY;;
      do _ <- sp_free BUF_REQUEST;;
      do _ <- modify_req (fun r => set_requestlen r 0);;
      do _ <- modify_req (fun r => set_request r None);;
      do _ <- modify_req (fun r =>
                set_flags r (Z.land (flags r) (Z.lnot SP_REQ_INPROGRESS)));;
      ret (RC_OK, out, len')
  end.

(** [sp_req_resend_routine]; [x] is what [sp_xreq_send] returns. *)
Definition sp_req_resend_routine (x : rc) : M unit :=
  do r <- get_req;;
  do _ <- sp_assert (in_progress r);;
  do x' <- sp_xreq_send (request r) (requestlen r) x;;
  do _ <- sp_assert (rc_ok_or_again x');;
  do r <- get_req;;
  sp_sockbase_timer_start (resend_ivl r).

(** [sp_req_setopt]; [optval] is the [int] the option value points to. *)
Definition sp_req_setopt (opt : Z) (optval : Z) (optvallen : Z) : M rc :=
  if opt =? SP_RESEND_IVL then
    if negb (optvallen =? sizeof_int) then ret (RC_ERR EINVAL)
    else
      do _ <- modify_req (fun r => set_resend_ivl r optval);;
      ret RC_OK
  else ret (RC_ERR ENOPROTOOPT).

(** [sp_req_getopt]; the result is the return code, the [int] written to
    [optval] (if any) and the final [*optvallen]. *)
Definition sp_req_getopt (opt : Z) (optvallen : Z) : M (rc * option Z * Z) :=
  if opt =? SP_RESEND_IVL then
    if optvallen <? sizeof_int then ret (RC_ERR EINVAL, None, optvallen)
    else
      do r <- get_req;;
      ret (RC_OK, Some (resend_ivl r), sizeof_int)
  else ret (RC_ERR ENOPROTOOPT, None, optvallen).

(** ** The raw XREQ socket delivering frames *)

(** Modelled from the spec: [sp_xreq_recv] (the raw socket, not under src/)
    delivering one frame into a buffer of [cap] bytes: it writes as much of
    the frame as fits and reports the frame's actual length
    ("raw_recv(buffer, max_len) -> Ok(actual_len)"). *)
Definition xreq_recv_frame (frame : list byte) (cap : Z) : xrecv_res :=
  XRECV_OK (firstn (Z.to_nat cap) frame) (Z.of_nat (length frame)).

(** Modelled from the spec: [sp_xreq_recv] with no frame available. *)
Definition xreq_recv_none (cap : Z) : xrecv_res := XRECV_ERR EAGAIN.

(** A frame on the wire: the 4-byte tag, then the payload. *)
Definition tagged_frame (tag : Z) (payload : list byte) : list byte :=
  sp_putl tag ++ payload.

(** The comparable ID of a tagged buffer. *)
Definition wire_id (b : list byte) : Z := Z.land (sp_getl b) 0x7fffffff.

(** ** Sequences of calls on one socket *)

Inductive op : Type :=
| OpSend (buf : list byte) (x : rc)
| OpRecv (len : Z) (xrecv : Z -> xrecv_res)
| OpResend (x : rc)
| OpSetopt (opt optval optvallen : Z)
| OpGetopt (opt optvallen : Z).

(** Runs the calls in order; the result lists the request buffers stored
    (and dispatched) by the [send] calls. *)
Fixpoint run (ops : list op) : M (list (list byte)) :=
  match ops with
  | [] => ret []
  | OpSend buf x :: ops =>
      do _ <- sp_req_send buf x;;
      do r <- get_req;;
      do rest <- run ops;;
      ret (match request r with Some b => b | None => [] end :: rest)
  | OpRecv len xrecv :: ops =>
      do _ <- sp_req_recv len xrecv;; run ops
  | OpResend x :: ops =>
      do _ <- sp_req_resend_routine x;; run ops
  | OpSetopt opt v l :: ops =>
      do _ <- sp_req_setopt opt v l;; run ops
  | OpGetopt opt l :: ops =>
      do _ <- sp_req_getopt opt l;; run ops
  end.

Fixpoint count_sends (ops : list op) : nat :=
  match ops with
  | [] => O
  | OpSend _ _ :: ops => S (count_sends ops)
  | _ :: ops => count_sends ops
  end.

(** ** Worlds the lemmas talk about *)

(** The world after the cancellation block at the top of [sp_req_send]. *)
Definition cancelled_world (w : world) : world :=
  let r := req w in
  mk_world
    (mk_sp_req (reqid r) (Z.land (flags r) (Z.lnot SP_REQ_INPROGRESS)) 0 None
       (resend_ivl r))
    None (calls w ++ [EvFree BUF_REQUEST; EvTimerCancel]).

(** The world a [send] of [buf] leaves behind, started from an idle [w]. *)
Definition sent_world (w : world) (buf : list byte) : world :=
  let r := req w in
  let id := Z.land (uint32 (reqid r + 1)) 0x7fffffff in
  let len := size_t (sizeof_uint32_t + Z.of_nat (length buf)) in
  let b := sp_putl (Z.lor id 0x80000000) ++ buf in
  mk_world
    (mk_sp_req id (Z.lor (flags r) SP_REQ_INPROGRESS) len (Some b) (resend_ivl r))
    (Some (resend_ivl r))
    (calls w ++ [EvAlloc BUF_REQUEST len; EvXreqSend b len;
                 EvTimerStart (resend_ivl r)]).

(** A candidate reply that [sp_req_recv] turns away for the socket state
    [r]: none available, shorter than the tag, bit 31 of the tag clear, or
    another request's ID. *)
Definition reply_rejected (r : sp_req) (x : xrecv_res) : Prop :=
  x = XRECV_ERR EAGAIN \/
  exists reply replylen, x = XRECV_OK reply replylen /\
    (replylen < sizeof_uint32_t \/ Z.testbit (sp_getl reply) 31 = false \/
     wire_id reply <> reqid r).

(** ** Example sockets *)

Definition ping : list byte := [x70; x69; x6e; x67].
Definition pong : list byte := [x70; x6f; x6e; x67].

(** A socket just opened, its generator having produced [0x92345678]. *)
Definition w_open : world := mk_world (sp_req_init 0x92345678) None [].

(** The same socket after [send ("ping")]. *)
Definition w_ping : world := sent_world w_open ping.

(** The raw socket of [w_ping] delivering the reply "pong" to it. *)
Definition recv_pong : Z -> xrecv_res :=
  xreq_recv_frame (tagged_frame (Z.lor (reqid (req w_ping)) 0x80000000) pong).

(** [w_ping] after [recv] consumed that reply. *)
Definition w_pong : world :=
  match sp_req_recv 10 recv_pong w_ping with
  | Done _ w => w
  | Abort => w_ping
  end.

(** A run of calls on [w_open]: a send, a reply that does not match, a
    resend, a change of the resend interval, a second send (superseding
    the first, the raw socket pushing back), the reply to it, and a third
    send. *)
Definition ops_demo : list op :=
  [OpSend ping RC_OK;
   OpRecv 10 (xreq_recv_frame (tagged_frame 0x80000001 pong));
   OpResend RC_OK;
   OpSetopt SP_RESEND_IVL 1000 4;
   OpSend pong (RC_ERR EAGAIN);
   OpRecv 10 (xreq_recv_frame (tagged_frame 0x9234567a pong));
   OpSend ping RC_OK].

(** ** Buffer ownership and the socket invariant *)

(** The effect of one call on the heap buffers the socket holds (request
    buffer held, reply buffer held): [None] when a buffer that is not held
    is freed, or a buffer is allocated while one of its kind is still held
    (the pointer to the old one being overwritten). *)
Definition heap_event (h : bool * bool) (e : event) : option (bool * bool) :=
  match e, h with
  | EvAlloc BUF_REQUEST _, (false, p) => Some (true, p)
  | EvAlloc BUF_REPLY _, (q, false) => Some (q, true)
  | EvFree BUF_REQUEST, (true, p) => Some (false, p)
  | EvFree BUF_REPLY, (q, true) => Some (q, false)
  | EvAlloc _ _, _ => None
  | EvFree _, _ => None
  | _, _ => Some h
  end.

(** Replays a call log from the buffers held [h]. *)
Fixpoint heap_replay (h : bool * bool) (cs : list event) : option (bool * bool) :=
  match cs with
  | [] => Some h
  | e :: cs =>
      match heap_event h e with
      | Some h' => heap_replay h' cs
      | None => None
      end
  end.

(** What [req.c] keeps true between calls: the ID fits in 31 bits, only the
    in-progress bit of [flags] is ever set, the call log (from the socket's
    creation) frees only what it allocated and holds exactly the request
    buffer while a request is in progress and no reply buffer, and a
    request is in progress exactly when the resend timer is armed and a
    request buffer, tagged with the current ID, is stored with its
    length. *)
Definition req_inv (w : world) : Prop :=
  (0 <= reqid (req w) < 2 ^ 31) /\
  (flags (req w) = 0 \/ flags (req w) = SP_REQ_INPROGRESS) /\
  heap_replay (false, false) (calls w) = Some (in_progress (req w), false) /\
  if in_progress (req w) then
    armed w <> None /\
    match request (req w) with
    | Some b =>
        b = sp_putl (Z.lor (reqid (req w)) 0x80000000) ++ skipn 4 b /\
        requestlen (req w) = Z.of_nat (length b)
    | None => False
    end
  else armed w = None /\ request (req w) = None /\ requestlen (req w) = 0.

(** The [send] calls of a run pass buffers whose tagged length fits in a
    [size_t]. *)
Fixpoint sends_fit (ops : list op) : bool :=
  match ops with
  | [] => true
  | OpSend buf _ :: ops =>
      (sizeof_uint32_t + Z.of_nat (length buf) <? 2 ^ 64) && sends_fit ops
  | _ :: ops => sends_fit ops
  end.

(** A raw socket returning the frame [frame] whatever the buffer size. *)
Definition xreq_recv_echo (frame : list byte) (cap : Z) : xrecv_res :=
  XRECV_OK frame (Z.of_nat (length frame)).

(** ** Wire helper lemmas *)

Lemma Z_of_byte_of_Z (z : Z) :
  0 <= z < 256 -> Z_of_byte (byte_of_Z z) = z.
Proof.
  intros Hz. unfold Z_of_byte, byte_of_Z.
  destruct (Byte.of_N (Z.to_N z)) as [b|] eqn:E.
  - apply Byte.to_of_N in E. rewrite E. apply Z2N.id. lia.
  - apply Byte.of_N_None_iff in E. lia.
Qed.

Lemma land_255_range (x : Z) : 0 <= Z.land x 255 < 256.
Proof.
  change 255 with (Z.ones 8). rewrite Z.land_ones by lia.
  apply Z.mod_pos_bound. lia.
Qed.

Lemma testbit_byte_field (v k i : Z) :
  0 <= k -> 0 <= i ->
  Z.testbit (Z.shiftl (Z.land (Z.shiftr v k) 255) k) i =
  (k <=? i) && (i <? k + 8) && Z.testbit v i.
Proof.
  intros Hk Hi. rewrite Z.shiftl_spec by lia.
  destruct (Z.leb_spec k i) as [Hki|Hki].
  - rewrite Z.land_spec, Z.shiftr_spec by lia.
    replace (i - k + k) with i by lia.
    change 255 with (Z.ones 8). rewrite Z.testbit_ones_nonneg by lia.
    destruct (Z.ltb_spec (i - k) 8), (Z.ltb_spec i (k + 8));
      simpl; try lia; apply andb_comm.
  - apply Z.testbit_neg_r. lia.
Qed.

Lemma sp_getl_putl (v : Z) (rest : list byte) :
  0 <= v < 2 ^ 32 -> sp_getl (sp_putl v ++ rest) = v.
Proof.
  intros Hv. unfold sp_getl, sp_putl. cbn [nth app].
  rewrite !Z_of_byte_of_Z by apply land_255_range.
  apply Z.bits_inj'. intros i Hi.
  rewrite !Z.lor_spec, !testbit_byte_field by lia.
  replace (Z.land v 255) with (Z.shiftl (Z.land (Z.shiftr v 0) 255) 0)
    by (rewrite Z.shiftr_0_r, Z.shiftl_0_r; reflexivity).
  rewrite testbit_byte_field by lia.
  destruct (Z.ltb_spec i 32) as [H32|H32].
  - destruct (Z.leb_spec 0 i), (Z.ltb_spec i (0 + 8)),
      (Z.leb_spec 8 i), (Z.ltb_spec i (8 + 8)),
      (Z.leb_spec 16 i), (Z.ltb_spec i (16 + 8)),
      (Z.leb_spec 24 i), (Z.ltb_spec i (24 + 8));
      simpl; rewrite ?orb_false_r; try reflexivity; lia.
  - rewrite <- (Z.mod_small v (2 ^ 32)) by lia.
    rewrite Z.mod_pow2_bits_high by lia.
    rewrite !andb_false_r. reflexivity.
Qed.

Lemma lor_tag (id : Z) :
  0 <= id < 2 ^ 31 -> Z.lor id 0x80000000 = id + 2 ^ 31.
Proof.
  intros Hid.
  assert (Hand : Z.land id 0x80000000 = 0).
  { apply Z.bits_inj'. intros i Hi.
    rewrite Z.land_spec, Z.bits_0.
    change 0x80000000 with (2 ^ 31). rewrite Z.pow2_bits_eqb by lia.
    destruct (Z.eqb_spec 31 i) as [<-|]; [|apply andb_false_r].
    rewrite <- (Z.mod_small id (2 ^ 31)) by lia.
    rewrite Z.mod_pow2_bits_high by lia. reflexivity. }
  rewrite <- Z.lxor_lor by exact Hand.
  rewrite <- Z.add_nocarry_lxor by exact Hand. reflexivity.
Qed.

Lemma land_mask31 (z : Z) : Z.land z 0x7fffffff = z mod 2 ^ 31.
Proof. change 0x7fffffff with (Z.ones 31). apply Z.land_ones. lia. Qed.

Lemma wire_id_tagged (id : Z) (payload : list byte) :
  0 <= id < 2 ^ 31 ->
  sp_getl (sp_putl (Z.lor id 0x80000000) ++ payload) = Z.lor id 0x80000000 /\
  wire_id (sp_putl (Z.lor id 0x80000000) ++ payload) = id.
Proof.
  intros Hid. rewrite lor_tag by exact Hid.
  unfold wire_id. rewrite sp_getl_putl by lia.
  split; [reflexivity|].
  rewrite land_mask31.
  replace (id + 2 ^ 31) with (id + 1 * 2 ^ 31) by lia.
  rewrite Z.mod_add by lia. apply Z.mod_small. exact Hid.
Qed.

(** ** Lemmas on the functions *)

Ltac unfold_m :=
  unfold bind, ret, get_req, modify_req, emit, sp_assert, sp_alloc, sp_free,
    sp_sockbase_timer_start, sp_sockbase_timer_cancel, sp_xreq_send,
    set_reqid, set_flags, set_requestlen, set_request, set_resend_ivl.

Ltac close_log := cbn [req armed calls rc_ok_or_again]; rewrite <- ?app_assoc; reflexivity.

Lemma in_progress_cleared (f : Z) :
  Z.land (Z.land f (Z.lnot SP_REQ_INPROGRESS)) SP_REQ_INPROGRESS = 0.
Proof.
  rewrite <- Z.land_assoc. rewrite (Z.land_comm (Z.lnot _)).
  rewrite Z.land_lnot_diag. apply Z.land_0_r.
Qed.

Lemma in_progress_of_cleared (r : sp_req) :
  in_progress (set_flags r (Z.land (flags r) (Z.lnot SP_REQ_INPROGRESS))) = false.
Proof. unfold in_progress. simpl. rewrite in_progress_cleared. reflexivity. Qed.

Lemma in_progress_of_set (r : sp_req) :
  in_progress (set_flags r (Z.lor (flags r) SP_REQ_INPROGRESS)) = true.
Proof.
  unfold in_progress. simpl.
  rewrite Z.land_lor_distr_l, Z.land_diag.
  change SP_REQ_INPROGRESS with 1.
  destruct (Z.lor (Z.land (flags r) 1) 1 =? 0) eqn:E; [|reflexivity].
  apply Z.eqb_eq, Z.lor_eq_0_iff in E. lia.
Qed.

Lemma next_reqid_mod (id : Z) :
  Z.land (uint32 (id + 1)) 0x7fffffff = (id + 1) mod 2 ^ 31.
Proof.
  rewrite land_mask31. unfold uint32. apply Z.mod_mod_divide.
  exists 2. reflexivity.
Qed.

Lemma cancelled_world_idle (w : world) :
  in_progress (req (cancelled_world w)) = false.
Proof. apply (in_progress_of_cleared (req w)). Qed.

Lemma sp_req_send_in_progress (w : world) (buf : list byte) (x : rc) :
  in_progress (req w) = true ->
  sp_req_send buf x w = sp_req_send buf x (cancelled_world w).
Proof.
  intros Hi. pose proof (cancelled_world_idle w) as Hc.
  destruct w as [[id fl rl rq ivl] a cs].
  cbn -[in_progress Z.land Z.lnot] in Hi, Hc |- *.
  unfold sp_req_send, bind at 1, get_req at 1, bind at 1, get_req at 1.
  cbn [req]. rewrite Hi, Hc.
  unfold_m. cbn -[Z.land Z.lnot Z.lor uint32 size_t sp_putl].
  rewrite <- !app_assoc. reflexivity.
Qed.

Lemma sp_req_send_idle (w : world) (buf : list byte) (x : rc) :
  in_progress (req w) = false -> rc_ok_or_again x = true ->
  sp_req_send buf x w = Done RC_OK (sent_world w buf).
Proof.
  intros Hi Hx. destruct w as [[id fl rl rq ivl] a cs]. cbn in Hi.
  unfold sp_req_send. unfold bind at 1. unfold get_req at 1. cbn [req].
  rewrite Hi. destruct x as [|[]]; try discriminate Hx;
  unfold_m; cbn; unfold sent_world; cbn; rewrite <- !app_assoc; reflexivity.
Qed.

Lemma sp_req_send_fatal (w : world) (buf : list byte) (x : rc) :
  rc_ok_or_again x = false -> sp_req_send buf x w = Abort.
Proof.
  intros Hx. destruct w as [[id fl rl rq ivl] a cs].
  unfold sp_req_send. unfold bind at 1. unfold get_req at 1. cbn [req].
  destruct (in_progress _);
  destruct x as [|[]]; try discriminate Hx; unfold_m; cbn; reflexivity.
Qed.

Lemma land_bit31 (z : Z) :
  Z.land z 0x80000000 = 0 <-> Z.testbit z 31 = false.
Proof.
  change 0x80000000 with (2 ^ 31). split.
  - intros H. pose proof (Z.land_spec z (2 ^ 31) 31) as E.
    rewrite H, Z.bits_0, Z.pow2_bits_true, andb_true_r in E by lia.
    symmetry. exact E.
  - intros H. apply Z.bits_inj'. intros i Hi.
    rewrite Z.land_spec, Z.bits_0, Z.pow2_bits_eqb by lia.
    destruct (Z.eqb_spec 31 i) as [<-|]; [|apply andb_false_r].
    rewrite H. reflexivity.
Qed.

Lemma sp_req_recv_idle (w : world) (len : Z) (xrecv : Z -> xrecv_res) :
  in_progress (req w) = false ->
  sp_req_recv len xrecv w = Done (RC_ERR EFSM, [], len) w.
Proof.
  intros Hi. unfold sp_req_recv, bind at 1, get_req at 1.
  rewrite Hi. reflexivity.
Qed.

Lemma sp_req_recv_reject (w : world) (len : Z) (xrecv : Z -> xrecv_res) :
  in_progress (req w) = true ->
  reply_rejected (req w) (xrecv (size_t (sizeof_uint32_t + len))) ->
  sp_req_recv len xrecv w =
  Done (RC_ERR EAGAIN, [], len)
    (mk_world (req w) (armed w)
       (calls w ++ [EvAlloc BUF_REPLY (size_t (sizeof_uint32_t + len));
                    EvFree BUF_REPLY])).
Proof.
  intros Hi Hrej. unfold sp_req_recv, bind at 1, get_req at 1.
  rewrite Hi. cbn [negb].
  destruct Hrej as [He | (reply & replylen & He & Hc)];
    unfold_m; unfold emit; cbn [req armed calls]; rewrite He;
    cbn [req armed calls].
  - close_log.
  - destruct (Z.ltb_spec replylen sizeof_uint32_t) as [Hl|Hl].
    { close_log. }
    destruct (Z.land (sp_getl reply) 0x80000000 =? 0) eqn:Eb.
    { close_log. }
    destruct Hc as [Hc | [Hc | Hc]]; [lia| |].
    + apply land_bit31, Z.eqb_eq in Hc. congruence.
    + unfold wire_id in Hc. apply Z.eqb_neq in Hc. rewrite Hc. cbn [negb].
      close_log.
Qed.

Lemma sp_req_recv_match (w : world) (len : Z) (xrecv : Z -> xrecv_res)
    (reply : list byte) (replylen : Z) :
  in_progress (req w) = true ->
  xrecv (size_t (sizeof_uint32_t + len)) = XRECV_OK reply replylen ->
  sizeof_uint32_t <= replylen ->
  Z.testbit (sp_getl reply) 31 = true ->
  wire_id reply = reqid (req w) ->
  sp_req_recv len xrecv w =
  Done (RC_OK,
        firstn (Z.to_nat (if len <? replylen - sizeof_uint32_t
                          then len else replylen - sizeof_uint32_t))
          (skipn 4 reply),
        replylen - sizeof_uint32_t)
    (mk_world
       (mk_sp_req (reqid (req w))
          (Z.land (flags (req w)) (Z.lnot SP_REQ_INPROGRESS)) 0 None
          (resend_ivl (req w)))
       None
       (calls w ++ [EvAlloc BUF_REPLY (size_t (sizeof_uint32_t + len));
                    EvTimerCancel; EvFree BUF_REPLY; EvFree BUF_REQUEST])).
Proof.
  intros Hi He Hl Hb Hid. unfold sp_req_recv, bind at 1, get_req at 1.
  rewrite Hi. cbn [negb]. unfold_m. unfold emit. cbn [req armed calls].
  rewrite He. cbn [req armed calls].
  destruct (Z.ltb_spec replylen sizeof_uint32_t) as [Hl'|_]; [lia|].
  destruct (Z.land (sp_getl reply) 0x80000000 =? 0) eqn:Eb.
  { apply Z.eqb_eq, land_bit31 in Eb. congruence. }
  unfold wire_id in Hid. rewrite Hid, Z.eqb_refl. cbn [negb].
  destruct w as [[id fl rl rq ivl] a cs]. cbn.
  rewrite <- !app_assoc. reflexivity.
Qed.

Lemma sp_req_send_ok (w : world) (buf : list byte) (x : rc) :
  rc_ok_or_again x = true ->
  sp_req_send buf x w =
  Done RC_OK (sent_world (if in_progress (req w) then cancelled_world w else w) buf).
Proof.
  intros Hx. destruct (in_progress (req w)) eqn:Hi.
  - rewrite sp_req_send_in_progress by exact Hi.
    apply sp_req_send_idle; [apply cancelled_world_idle | exact Hx].
  - apply sp_req_send_idle; assumption.
Qed.

Lemma sent_world_reqid (w : world) (buf : list byte) :
  reqid (req (sent_world w buf)) = (reqid (req w) + 1) mod 2 ^ 31.
Proof. apply next_reqid_mod. Qed.

Lemma sent_world_in_progress (w : world) (buf : list byte) :
  in_progress (req (sent_world w buf)) = true.
Proof. apply (in_progress_of_set (set_reqid (req w) 0)). Qed.

Lemma sp_req_send_reqid (w w' : world) (buf : list byte) (x r : rc) :
  sp_req_send buf x w = Done r w' ->
  reqid (req w') = (reqid (req w) + 1) mod 2 ^ 31 /\
  request (req w') =
    Some (sp_putl (Z.lor (reqid (req w')) 0x80000000) ++ buf).
Proof.
  destruct (rc_ok_or_again x) eqn:Hx.
  - rewrite sp_req_send_ok by exact Hx. intros H. inversion H; subst.
    split; [|reflexivity]. rewrite sent_world_reqid.
    destruct (in_progress (req w)); reflexivity.
  - rewrite sp_req_send_fatal by exact Hx. discriminate.
Qed.

Ltac split_ifs :=
  repeat match goal with
  | |- context [if ?c then _ else _] => destruct c
  end.

Lemma sp_req_recv_reqid (w w' : world) (len : Z) (xrecv : Z -> xrecv_res) res :
  sp_req_recv len xrecv w = Done res w' -> reqid (req w') = reqid (req w).
Proof.
  unfold sp_req_recv, bind at 1, get_req at 1.
  destruct (in_progress (req w)); cbn [negb].
  2: { intros H. inversion H. reflexivity. }
  unfold_m. unfold emit. cbn [req armed calls].
  destruct (xrecv _) as [e|reply replylen]; [destruct e|];
    cbn [req armed calls]; split_ifs; intros H; inversion H; reflexivity.
Qed.

Lemma sp_req_recv_ok_idle (w w' : world) (len : Z) (xrecv : Z -> xrecv_res)
    out l :
  sp_req_recv len xrecv w = Done (RC_OK, out, l) w' ->
  in_progress (req w') = false.
Proof.
  unfold sp_req_recv, bind at 1, get_req at 1.
  destruct (in_progress (req w)); cbn [negb].
  2: { intros H. inversion H. }
  unfold_m. unfold emit. cbn [req armed calls].
  destruct (xrecv _) as [e|reply replylen]; [destruct e|];
    cbn [req armed calls]; split_ifs; intros H; inversion H; subst.
  all: unfold in_progress; cbn [req flags]; rewrite in_progress_cleared;
    reflexivity.
Qed.

Lemma sp_req_resend_ok (w : world) (x : rc) :
  in_progress (req w) = true -> rc_ok_or_again x = true ->
  sp_req_resend_routine x w =
  Done tt (mk_world (req w) (Some (resend_ivl (req w)))
    (calls w ++ [EvXreqSend (match request (req w) with Some b => b | None => [] end)
                   (requestlen (req w));
                 EvTimerStart (resend_ivl (req w))])).
Proof.
  intros Hi Hx. unfold sp_req_resend_routine, bind at 1, get_req at 1.
  unfold sp_assert at 1. rewrite Hi.
  destruct x as [|[]]; try discriminate Hx;
    unfold_m; unfold bind, ret, emit; close_log.
Qed.

Lemma next_id_differs (id : Z) :
  0 <= id < 2 ^ 31 -> id <> (id + 1) mod 2 ^ 31.
Proof.
  intros Hid. destruct (Z.eq_dec id (2 ^ 31 - 1)) as [->|Hne].
  - vm_compute. discriminate.
  - rewrite Z.mod_small by lia. lia.
Qed.

Lemma sp_req_resend_req (w w' : world) (x : rc) (u : unit) :
  sp_req_resend_routine x w = Done u w' -> req w' = req w.
Proof.
  unfold sp_req_resend_routine, bind at 1, get_req at 1. unfold sp_assert at 1.
  destruct (in_progress (req w)); [|discriminate].
  destruct x as [|[]]; unfold_m; unfold bind, ret, emit; cbn [req rc_ok_or_again];
    intros H; inversion H; reflexivity.
Qed.

Lemma sp_req_setopt_reqid (w w' : world) (opt v l : Z) (r : rc) :
  sp_req_setopt opt v l w = Done r w' -> reqid (req w') = reqid (req w).
Proof.
  unfold sp_req_setopt. unfold_m.
  split_ifs; intros H; inversion H; reflexivity.
Qed.

Lemma sp_req_getopt_same (w w' : world) (opt l : Z) res :
  sp_req_getopt opt l w = Done res w' -> w' = w.
Proof.
  unfold sp_req_getopt. unfold_m.
  split_ifs; intros H; inversion H; reflexivity.
Qed.

Lemma wire_id_sent (w : world) (buf : list byte) :
  wire_id (sp_putl (Z.lor (reqid (req (sent_world w buf))) 0x80000000) ++ buf) =
  reqid (req (sent_world w buf)).
Proof.
  apply wire_id_tagged. rewrite sent_world_reqid. apply Z.mod_pos_bound. lia.
Qed.

Lemma firstn_tagged (t : Z) (payload : list byte) (n : nat) :
  (4 <= n)%nat ->
  firstn n (tagged_frame t payload) = tagged_frame t (firstn (n - 4) payload).
Proof.
  intros Hn. unfold tagged_frame. rewrite firstn_app.
  replace (length (sp_putl t)) with 4%nat by reflexivity.
  rewrite firstn_all2 by (cbn [length sp_putl]; lia). reflexivity.
Qed.

Lemma skipn_tagged (t : Z) (payload : list byte) :
  skipn 4 (tagged_frame t payload) = payload.
Proof. reflexivity. Qed.

Lemma length_tagged (t : Z) (payload : list byte) :
  Z.of_nat (length (tagged_frame t payload)) = 4 + Z.of_nat (length payload).
Proof. unfold tagged_frame. rewrite length_app. cbn [length sp_putl]. lia. Qed.

Lemma last_app3 {A : Type} (l : list A) (a b c d : A) :
  last (l ++ [a; b; c]) d = c.
Proof. change [a; b; c] with ([a; b] ++ [c]). rewrite app_assoc. apply last_last. Qed.

(** ** The claims *)

(** C1: [send] on a socket with a request in progress first releases the
    old request buffer, clears the in-progress flag and cancels the resend
    timer; the rest of [send] then runs exactly as on an idle socket, the
    new buffer being allocated only after the free and the cancel. A reply
    carrying the superseded ID, received next, is turned away by [recv]
    ([EAGAIN], socket and timer unchanged). *)
Theorem send_supersedes_request (w : world) (buf : list byte) (x : rc)
    (len : Z) (xrecv : Z -> xrecv_res) :
  in_progress (req w) = true ->
  0 <= reqid (req w) < 2 ^ 31 ->
  rc_ok_or_again x = true ->
  (exists reply replylen,
      xrecv (size_t (sizeof_uint32_t + len)) = XRECV_OK reply replylen /\
      wire_id reply = reqid (req w)) ->
  in_progress (req (cancelled_world w)) = false /\
  request (req (cancelled_world w)) = None /\
  armed (cancelled_world w) = None /\
  calls (cancelled_world w) = calls w ++ [EvFree BUF_REQUEST; EvTimerCancel] /\
  sp_req_send buf x w = sp_req_send buf x (cancelled_world w) /\
  exists w', sp_req_send buf x w = Done RC_OK w' /\
    (exists post, calls w' =
       calls w ++ [EvFree BUF_REQUEST; EvTimerCancel;
                   EvAlloc BUF_REQUEST (requestlen (req w'))] ++ post) /\
    exists w'', sp_req_recv len xrecv w' = Done (RC_ERR EAGAIN, [], len) w'' /\
      req w'' = req w' /\ armed w'' = armed w'.
Proof.
  intros Hi Hid Hx (reply & replylen & Hr & Hw).
  split; [apply cancelled_world_idle|].
  split; [reflexivity|]. split; [reflexivity|]. split; [reflexivity|].
  split; [exact (sp_req_send_in_progress w buf x Hi)|].
  rewrite sp_req_send_ok by exact Hx. rewrite Hi.
  eexists; split; [reflexivity|]. split.
  - eexists. cbn [sent_world calls cancelled_world].
    rewrite <- !app_assoc. reflexivity.
  - rewrite sp_req_recv_reject.
    + eexists; split; [reflexivity|]. split; reflexivity.
    + apply sent_world_in_progress.
    + right. exists reply, replylen. split; [exact Hr|]. right. right.
      rewrite sent_world_reqid, Hw. cbn [cancelled_world req reqid].
      apply next_id_differs. exact Hid.
Qed.

Lemma send_supersedes_request_witness :
  in_progress (req w_ping) = true /\
  (0 <= reqid (req w_ping) < 2 ^ 31) /\
  rc_ok_or_again RC_OK = true /\
  exists w', sp_req_send pong RC_OK w_ping = Done RC_OK w' /\
    exists w'', sp_req_recv 10 (xreq_recv_frame
                   (tagged_frame (Z.lor (reqid (req w_ping)) 0x80000000) pong)) w' =
                Done (RC_ERR EAGAIN, [], 10) w''.
Proof.
  destruct (send_supersedes_request w_ping pong RC_OK 10
              (xreq_recv_frame
                 (tagged_frame (Z.lor (reqid (req w_ping)) 0x80000000) pong)))
    as (_ & _ & _ & _ & _ & w' & Hs & _ & w'' & Hr & _).
  - vm_compute. reflexivity.
  - split; vm_compute; [intros H; discriminate H | reflexivity].
  - reflexivity.
  - eexists; eexists; split; [reflexivity|]. vm_compute. reflexivity.
  - split; [vm_compute; reflexivity|].
    split; [split; vm_compute; [intros H; discriminate H | reflexivity]|].
    split; [reflexivity|].
    exists w'. split; [exact Hs|]. exists w''. exact Hr.
Defined.

(** C2: while a request is in progress, [recv] with no reply available, a
    reply shorter than 4 bytes, one whose tag has bit 31 clear, or one whose
    masked ID is not the current [reqid], returns [EAGAIN] and leaves the
    socket as it was: still in progress, same stored request, same timer. *)
Theorem recv_rejects_keep_state (w : world) (len : Z) (xrecv : Z -> xrecv_res) :
  in_progress (req w) = true ->
  reply_rejected (req w) (xrecv (size_t (sizeof_uint32_t + len))) ->
  exists w', sp_req_recv len xrecv w = Done (RC_ERR EAGAIN, [], len) w' /\
    req w' = req w /\ in_progress (req w') = true /\
    request (req w') = request (req w) /\ armed w' = armed w.
Proof.
  intros Hi Hrej. rewrite sp_req_recv_reject by assumption.
  eexists; split; [reflexivity|]. cbn [req armed].
  repeat split; assumption || reflexivity.
Qed.

Lemma recv_rejects_keep_state_witness :
  exists w', sp_req_recv 10
               (xreq_recv_frame (tagged_frame 0x00000007 pong)) w_ping =
             Done (RC_ERR EAGAIN, [], 10) w' /\ req w' = req w_ping /\
             armed w' = Some SP_REQ_DEFAULT_RESEND_IVL.
Proof.
  destruct (recv_rejects_keep_state w_ping 10
              (xreq_recv_frame (tagged_frame 0x00000007 pong)))
    as (w' & H & Hr & _ & _ & Ha).
  - vm_compute. reflexivity.
  - right. eexists; eexists; split; [reflexivity|].
    right. left. vm_compute. reflexivity.
  - exists w'. split; [exact H|]. split; [exact Hr|].
    rewrite Ha. reflexivity.
Defined.

(** C6: on an idle socket [recv] fails with [EFSM] and changes nothing;
    in particular after a [recv] that consumed the reply, a second [recv]
    (no [send] in between) fails with [EFSM]. *)
Theorem recv_idle_bad_state :
  (forall (w : world) (len : Z) (xrecv : Z -> xrecv_res),
     in_progress (req w) = false ->
     sp_req_recv len xrecv w = Done (RC_ERR EFSM, [], len) w) /\
  (forall (w w' : world) (len : Z) (xrecv : Z -> xrecv_res) out l,
     sp_req_recv len xrecv w = Done (RC_OK, out, l) w' ->
     forall (len2 : Z) (xrecv2 : Z -> xrecv_res),
       sp_req_recv len2 xrecv2 w' = Done (RC_ERR EFSM, [], len2) w').
Proof.
  split.
  - intros w len xrecv Hi. apply sp_req_recv_idle. exact Hi.
  - intros w w' len xrecv out l H len2 xrecv2.
    apply sp_req_recv_idle. eapply sp_req_recv_ok_idle. exact H.
Qed.

Lemma recv_idle_bad_state_witness :
  sp_req_recv 10 (xreq_recv_frame (tagged_frame 0x80000000 pong)) w_open =
    Done (RC_ERR EFSM, [], 10) w_open /\
  sp_req_recv 10 xreq_recv_none w_pong = Done (RC_ERR EFSM, [], 10) w_pong.
Proof.
  split.
  - apply (proj1 recv_idle_bad_state). vm_compute. reflexivity.
  - apply (proj2 recv_idle_bad_state w_ping w_pong 10 recv_pong pong 4).
    vm_compute. reflexivity.
Defined.

(** C7: the resend timer firing while a request is in progress
    redispatches the stored request buffer as it is (no allocation) and
    rearms the timer for [resend_ivl]; the socket record is unchanged.
    Firing while no request is in progress fails the assertion. *)
Theorem resend_redispatches_request (w : world) (x : rc) :
  (in_progress (req w) = true -> rc_ok_or_again x = true ->
   sp_req_resend_routine x w =
   Done tt (mk_world (req w) (Some (resend_ivl (req w)))
     (calls w ++
      [EvXreqSend (match request (req w) with Some b => b | None => [] end)
         (requestlen (req w));
       EvTimerStart (resend_ivl (req w))]))) /\
  (in_progress (req w) = false -> sp_req_resend_routine x w = Abort).
Proof.
  split.
  - apply sp_req_resend_ok.
  - intros Hi. unfold sp_req_resend_routine, bind at 1, get_req at 1.
    unfold sp_assert at 1. rewrite Hi. reflexivity.
Qed.

Lemma resend_redispatches_request_witness :
  sp_req_resend_routine (RC_ERR EAGAIN) w_ping =
  Done tt (mk_world (req w_ping) (Some 60000)
    (calls w_ping ++
     [EvXreqSend (sp_putl 0x92345679 ++ ping) 8; EvTimerStart 60000])) /\
  sp_req_resend_routine RC_OK w_open = Abort.
Proof.
  split.
  - rewrite (proj1 (resend_redispatches_request w_ping (RC_ERR EAGAIN)));
      [vm_compute; reflexivity | vm_compute; reflexivity | reflexivity].
  - apply (proj2 (resend_redispatches_request w_open RC_OK)).
    vm_compute. reflexivity.
Defined.

(** C9: after [sp_req_init] the request ID is the random value masked to
    31 bits (bit 31 clear), no request is in progress, no request buffer is
    stored (NULL, length 0) and the resend interval is 60000 ms. *)
Theorem init_state (rnd : Z) :
  reqid (sp_req_init rnd) = Z.land rnd 0x7fffffff /\
  Z.testbit (reqid (sp_req_init rnd)) 31 = false /\
  0 <= reqid (sp_req_init rnd) < 2 ^ 31 /\
  in_progress (sp_req_init rnd) = false /\
  request (sp_req_init rnd) = None /\
  requestlen (sp_req_init rnd) = 0 /\
  resend_ivl (sp_req_init rnd) = 60000.
Proof.
  cbn [sp_req_init set_reqid set_flags set_requestlen set_request set_resend_ivl
       reqid flags requestlen request resend_ivl].
  split; [reflexivity|]. split.
  - rewrite Z.land_spec. change 0x7fffffff with (Z.ones 31).
    rewrite Z.testbit_ones_nonneg by lia. apply andb_false_r.
  - split; [rewrite land_mask31; apply Z.mod_pos_bound; lia|].
    repeat split; reflexivity.
Qed.

(** C3: [recv] never changes the request ID, and over any sequence of
    calls (sends, receives, resends, option calls) starting from request ID
    [id0], the buffers stored and dispatched by the N sends carry the masked
    IDs [id0+1, ..., id0+N] modulo 2^31. *)
Theorem send_ids_advance :
  (forall (w w' : world) (len : Z) (xrecv : Z -> xrecv_res) res,
     sp_req_recv len xrecv w = Done res w' -> reqid (req w') = reqid (req w)) /\
  (forall (ops : list op) (w w' : world) (bufs : list (list byte)),
     run ops w = Done bufs w' ->
     length bufs = count_sends ops /\
     map wire_id bufs =
     map (fun k => (reqid (req w) + Z.of_nat k) mod 2 ^ 31) (seq 1 (length bufs))).
Proof.
  split; [exact sp_req_recv_reqid|].
  induction ops as [|o ops IH]; intros w w' bufs H.
  - cbn in H. inversion H. split; reflexivity.
  - destruct o as [buf x | len xrecv | x | opt v l | opt l];
      cbn [run count_sends] in H |- *; unfold bind at 1 in H.
    + destruct (sp_req_send buf x w) as [r1 w1|] eqn:Es; [|discriminate].
      unfold bind, get_req, ret in H.
      destruct (run ops w1) as [rest w2|] eqn:Er; [|discriminate].
      inversion H; subst bufs w2. clear H.
      destruct (IH w1 w' rest Er) as [Hl Hm].
      pose proof Es as Es'. apply sp_req_send_reqid in Es' as [Eid Ereq].
      rewrite Ereq. split; [cbn; f_equal; exact Hl|].
      cbn [map length seq]. f_equal.
      * destruct (rc_ok_or_again x) eqn:Hx;
          [|rewrite sp_req_send_fatal in Es by exact Hx; discriminate].
        rewrite sp_req_send_ok in Es by exact Hx. inversion Es; subst.
        rewrite wire_id_sent, sent_world_reqid.
        destruct (in_progress (req w)); reflexivity.
      * rewrite Hm.
        replace (seq 2 (length rest)) with (map S (seq 1 (length rest)))
          by apply seq_shift.
        rewrite map_map. apply map_ext. intros k.
        rewrite Eid, Z.add_mod_idemp_l by lia. f_equal. lia.
    + destruct (sp_req_recv len xrecv w) as [r1 w1|] eqn:Es; [|discriminate].
      rewrite <- (sp_req_recv_reqid w w1 len xrecv r1 Es). exact (IH w1 w' bufs H).
    + destruct (sp_req_resend_routine x w) as [r1 w1|] eqn:Es; [|discriminate].
      rewrite <- (sp_req_resend_req w w1 x r1 Es). exact (IH w1 w' bufs H).
    + destruct (sp_req_setopt opt v l w) as [r1 w1|] eqn:Es; [|discriminate].
      rewrite <- (sp_req_setopt_reqid w w1 opt v l r1 Es). exact (IH w1 w' bufs H).
    + destruct (sp_req_getopt opt l w) as [r1 w1|] eqn:Es; [|discriminate].
      rewrite <- (sp_req_getopt_same w w1 opt l r1 Es). exact (IH w1 w' bufs H).
Qed.

Lemma send_ids_advance_witness :
  match run ops_demo w_open with
  | Done bufs _ =>
      length bufs = 3%nat /\
      map wire_id bufs =
      map (fun k => (reqid (req w_open) + Z.of_nat k) mod 2 ^ 31)
        (seq 1 (length bufs))
  | Abort => False
  end.
Proof.
  destruct (run ops_demo w_open) as [bufs w'|] eqn:E.
  - destruct (proj2 send_ids_advance ops_demo w_open w' bufs E) as [Hl Hm].
    split; [exact Hl | exact Hm].
  - vm_compute in E. discriminate E.
Defined.

(** C4: a completed [send] of [buf] stores, and hands to the raw socket,
    the buffer of length [4 + length buf] made of the big-endian encoding
    of [reqid | 0x80000000] (the new request ID) followed by [buf]. *)
Theorem send_tagged_request (w : world) (buf : list byte) (x : rc) :
  rc_ok_or_again x = true ->
  Z.of_nat (length buf) + 4 < 2 ^ 64 ->
  exists w', sp_req_send buf x w = Done RC_OK w' /\
    reqid (req w') = (reqid (req w) + 1) mod 2 ^ 31 /\
    request (req w') = Some (sp_putl (Z.lor (reqid (req w')) 0x80000000) ++ buf) /\
    requestlen (req w') = 4 + Z.of_nat (length buf) /\
    Z.of_nat (length (sp_putl (Z.lor (reqid (req w')) 0x80000000) ++ buf)) =
      4 + Z.of_nat (length buf) /\
    sp_getl (sp_putl (Z.lor (reqid (req w')) 0x80000000) ++ buf) =
      Z.lor (reqid (req w')) 0x80000000 /\
    In (EvXreqSend (sp_putl (Z.lor (reqid (req w')) 0x80000000) ++ buf)
          (4 + Z.of_nat (length buf)))
       (calls w').
Proof.
  intros Hx Hlen. rewrite sp_req_send_ok by exact Hx.
  eexists. split; [reflexivity|].
  assert (Hid : forall w0, reqid (req w0) = reqid (req w) ->
            reqid (req (sent_world w0 buf)) = (reqid (req w) + 1) mod 2 ^ 31).
  { intros w0 E. rewrite sent_world_reqid, E. reflexivity. }
  assert (Hlen' : size_t (sizeof_uint32_t + Z.of_nat (length buf)) =
                  4 + Z.of_nat (length buf)).
  { unfold size_t, sizeof_uint32_t. apply Z.mod_small. lia. }
  set (w0 := if in_progress (req w) then cancelled_world w else w).
  assert (E0 : reqid (req w0) = reqid (req w))
    by (unfold w0; destruct (in_progress (req w)); reflexivity).
  split; [exact (Hid w0 E0)|].
  split; [reflexivity|].
  split; [exact Hlen'|].
  split; [rewrite length_app; cbn [length sp_putl]; lia|].
  split.
  - refine (proj1 (wire_id_tagged (reqid (req (sent_world w0 buf))) buf _)).
    rewrite (Hid w0 E0). apply Z.mod_pos_bound. lia.
  - cbn [sent_world calls]. apply in_or_app. right.
    cbn [In]. right. left. rewrite Hlen'. reflexivity.
Qed.

Lemma send_tagged_request_witness :
  sp_req_send ping RC_OK w_open = Done RC_OK w_ping /\
  request (req w_ping) = Some ([x92; x34; x56; x79] ++ ping).
Proof.
  destruct (send_tagged_request w_open ping RC_OK)
    as (w' & Hs & _ & Hr & _).
  - reflexivity.
  - vm_compute. reflexivity.
  - rewrite Hs. split.
    + f_equal. vm_compute in Hs. inversion Hs. reflexivity.
    + vm_compute. reflexivity.
Defined.

(** C5: when [recv] consumes the reply matching the request in progress
    (the raw socket delivering the frame into the [4 + len] bytes it is
    given and reporting the frame's length), exactly
    [min len (length payload)] bytes of the payload (the bytes after the
    tag) are copied out, and the length reported is the full payload
    length. *)
Theorem recv_truncates_reports_full (w : world) (len : Z) (payload : list byte) :
  in_progress (req w) = true ->
  0 <= reqid (req w) < 2 ^ 31 ->
  0 <= len -> sizeof_uint32_t + len < 2 ^ 64 ->
  exists out w',
    sp_req_recv len
      (xreq_recv_frame (tagged_frame (Z.lor (reqid (req w)) 0x80000000) payload)) w
    = Done (RC_OK, out, Z.of_nat (length payload)) w' /\
    out = firstn (Z.to_nat (Z.min len (Z.of_nat (length payload)))) payload /\
    Z.of_nat (length out) = Z.min len (Z.of_nat (length payload)).
Proof.
  intros Hi Hid Hl Hlen.
  set (t := Z.lor (reqid (req w)) 0x80000000).
  set (cap := size_t (sizeof_uint32_t + len)).
  assert (Hcap : cap = 4 + len)
    by (unfold cap, size_t, sizeof_uint32_t in *; apply Z.mod_small; lia).
  set (reply := firstn (Z.to_nat cap) (tagged_frame t payload)).
  assert (Hreply : reply = tagged_frame t (firstn (Z.to_nat len) payload)).
  { unfold reply. rewrite Hcap, firstn_tagged by lia. f_equal. f_equal. lia. }
  destruct (wire_id_tagged (reqid (req w)) (firstn (Z.to_nat len) payload) Hid)
    as [Hg Hw].
  rewrite (sp_req_recv_match w len _ reply
             (Z.of_nat (length (tagged_frame t payload)))).
  - rewrite length_tagged.
    replace (4 + Z.of_nat (length payload) - sizeof_uint32_t)
      with (Z.of_nat (length payload)) by (unfold sizeof_uint32_t; lia).
    replace (if len <? Z.of_nat (length payload) then len
             else Z.of_nat (length payload))
      with (Z.min len (Z.of_nat (length payload)))
      by (destruct (Z.ltb_spec len (Z.of_nat (length payload))); lia).
    rewrite Hreply, skipn_tagged, firstn_firstn.
    eexists; eexists; split; [reflexivity|]. split.
    + f_equal. lia.
    + rewrite length_firstn. lia.
  - exact Hi.
  - reflexivity.
  - rewrite length_tagged. unfold sizeof_uint32_t. lia.
  - rewrite Hreply. unfold tagged_frame, t. rewrite Hg, Z.lor_spec.
    apply orb_true_r.
  - rewrite Hreply. exact Hw.
Qed.

Lemma recv_truncates_reports_full_witness :
  match sp_req_recv 2 recv_pong w_ping with
  | Done (r, out, l) _ => r = RC_OK /\ out = [x70; x6f] /\ l = 4
  | Abort => False
  end.
Proof.
  destruct (recv_truncates_reports_full w_ping 2 pong)
    as (out & w' & H & Hout & _).
  - vm_compute. reflexivity.
  - split; vm_compute; [intros E; discriminate E | reflexivity].
  - lia.
  - vm_compute. reflexivity.
  - unfold recv_pong. rewrite H, Hout. vm_compute.
    split; [|split]; reflexivity.
Defined.

(** C8, as stated, fails for get-option: asked for the resend interval
    with an 8-byte buffer ([8 <> sizeof (int)]), [sp_req_getopt] succeeds,
    writes the interval and reports length 4, instead of failing with
    [EINVAL]. *)
Lemma getopt_accepts_longer_buffer :
  8 <> sizeof_int /\
  sp_req_getopt SP_RESEND_IVL 8 w_open =
    Done (RC_OK, Some 60000, sizeof_int) w_open.
Proof. split; [discriminate | reflexivity]. Qed.

(** C8 (amended): set-option on the resend interval fails with [EINVAL]
    unless the value is [sizeof (int)] = 4 bytes long; get-option fails
    with [EINVAL] only when the caller's buffer is shorter than 4 bytes and
    otherwise writes the interval and reports length 4; both fail with
    [ENOPROTOOPT] on any other option; none of these failures changes the
    socket; and a successful set is what a following get returns. *)
Theorem resend_ivl_option_checks :
  (forall (w : world) (v l : Z), l <> sizeof_int ->
     sp_req_setopt SP_RESEND_IVL v l w = Done (RC_ERR EINVAL) w) /\
  (forall (w : world) (l : Z), l < sizeof_int ->
     sp_req_getopt SP_RESEND_IVL l w = Done (RC_ERR EINVAL, None, l) w) /\
  (forall (w : world) (l : Z), sizeof_int <= l ->
     sp_req_getopt SP_RESEND_IVL l w =
       Done (RC_OK, Some (resend_ivl (req w)), sizeof_int) w) /\
  (forall (w : world) (opt v l : Z), opt <> SP_RESEND_IVL ->
     sp_req_setopt opt v l w = Done (RC_ERR ENOPROTOOPT) w) /\
  (forall (w : world) (opt l : Z), opt <> SP_RESEND_IVL ->
     sp_req_getopt opt l w = Done (RC_ERR ENOPROTOOPT, None, l) w) /\
  (forall (w : world) (v l : Z), sizeof_int <= l ->
     exists w', sp_req_setopt SP_RESEND_IVL v sizeof_int w = Done RC_OK w' /\
       sp_req_getopt SP_RESEND_IVL l w' = Done (RC_OK, Some v, sizeof_int) w').
Proof.
  unfold sp_req_setopt, sp_req_getopt. unfold_m.
  split; [|split; [|split; [|split; [|split]]]].
  - intros w v l Hl. rewrite Z.eqb_refl.
    apply Z.eqb_neq in Hl. rewrite Hl. reflexivity.
  - intros w l Hl. rewrite Z.eqb_refl.
    apply Z.ltb_lt in Hl. rewrite Hl. reflexivity.
  - intros w l Hl. rewrite Z.eqb_refl.
    apply Z.ltb_ge in Hl. rewrite Hl. reflexivity.
  - intros w opt v l Ho. apply Z.eqb_neq in Ho. rewrite Ho. reflexivity.
  - intros w opt l Ho. apply Z.eqb_neq in Ho. rewrite Ho. reflexivity.
  - intros w v l Hl. rewrite Z.eqb_refl, Z.eqb_refl. cbn [negb].
    eexists. split; [reflexivity|].
    apply Z.ltb_ge in Hl. rewrite Hl. reflexivity.
Qed.

Lemma resend_ivl_option_checks_witness :
  sp_req_setopt SP_RESEND_IVL 1000 2 w_open = Done (RC_ERR EINVAL) w_open /\
  sp_req_getopt SP_RESEND_IVL 2 w_open = Done (RC_ERR EINVAL, None, 2) w_open /\
  sp_req_getopt SP_RESEND_IVL 4 w_open = Done (RC_OK, Some 60000, 4) w_open /\
  sp_req_setopt 7 1000 4 w_open = Done (RC_ERR ENOPROTOOPT) w_open /\
  sp_req_getopt 7 4 w_open = Done (RC_ERR ENOPROTOOPT, None, 4) w_open /\
  exists w', sp_req_setopt SP_RESEND_IVL 1000 4 w_open = Done RC_OK w' /\
    sp_req_getopt SP_RESEND_IVL 4 w' = Done (RC_OK, Some 1000, 4) w'.
Proof.
  destruct resend_ivl_option_checks as (H1 & H2 & H3 & H4 & H5 & H6).
  split; [apply H1; discriminate|].
  split; [apply H2; reflexivity|].
  split; [apply H3; discriminate|].
  split; [apply H4; discriminate|].
  split; [apply H5; discriminate|].
  apply H6. discriminate.
Defined.

(** C10: set-option of the resend interval with a 4-byte value does not
    look at the value: any [int] [v] (zero and negative ones included) is
    accepted and stored as it is, and the next [send] arms the resend timer
    with [v]. *)
Theorem setopt_stores_any_interval (w : world) (v : Z) (buf : list byte) (x : rc) :
  rc_ok_or_again x = true ->
  exists w1 w2,
    sp_req_setopt SP_RESEND_IVL v sizeof_int w = Done RC_OK w1 /\
    req w1 = set_resend_ivl (req w) v /\
    sp_req_send buf x w1 = Done RC_OK w2 /\
    armed w2 = Some v /\
    last (calls w2) EvTimerCancel = EvTimerStart v.
Proof.
  intros Hx.
  destruct (proj2 (proj2 (proj2 (proj2 (proj2 resend_ivl_option_checks))))
              w v sizeof_int (Z.le_refl _)) as (w1 & Hs & _).
  assert (Hw1 : w1 = mk_world (set_resend_ivl (req w) v) (armed w) (calls w)).
  { unfold sp_req_setopt in Hs. unfold_m. cbn in Hs. inversion Hs. reflexivity. }
  subst w1. do 2 eexists. split; [exact Hs|]. split; [reflexivity|].
  split; [apply sp_req_send_ok; exact Hx|].
  destruct (in_progress _); cbn [sent_world armed calls cancelled_world req resend_ivl set_resend_ivl];
    (split; [reflexivity | apply last_app3]).
Qed.

Lemma setopt_stores_any_interval_witness :
  exists w1 w2,
    sp_req_setopt SP_RESEND_IVL (-5) 4 w_ping = Done RC_OK w1 /\
    sp_req_send pong RC_OK w1 = Done RC_OK w2 /\
    armed w2 = Some (-5).
Proof.
  destruct (setopt_stores_any_interval w_ping (-5) pong RC_OK)
    as (w1 & w2 & H1 & _ & H2 & H3 & _).
  - reflexivity.
  - exists w1, w2. split; [exact H1|]. split; [exact H2 | exact H3].
Defined.

(** ** Further lemmas: the socket invariant *)

Lemma heap_replay_app (h : bool * bool) (l1 l2 : list event) :
  heap_replay h (l1 ++ l2) =
  match heap_replay h l1 with Some h' => heap_replay h' l2 | None => None end.
Proof.
  revert h. induction l1 as [|e l1 IH]; intros h; cbn [heap_replay app].
  - reflexivity.
  - destruct (heap_event h e); [apply IH | reflexivity].
Qed.

Lemma flags_busy (r : sp_req) :
  flags r = 0 \/ flags r = SP_REQ_INPROGRESS ->
  in_progress r = true -> flags r = SP_REQ_INPROGRESS.
Proof.
  intros [E|E] Hi; [|exact E].
  unfold in_progress in Hi. rewrite E in Hi. vm_compute in Hi. discriminate Hi.
Qed.

Lemma flags_idle (r : sp_req) :
  flags r = 0 \/ flags r = SP_REQ_INPROGRESS ->
  in_progress r = false -> flags r = 0.
Proof.
  intros [E|E] Hi; [exact E|].
  unfold in_progress in Hi. rewrite E in Hi. vm_compute in Hi. discriminate Hi.
Qed.

Lemma in_progress_zero (id rl : Z) (rq : option (list byte)) (ivl : Z) :
  in_progress (mk_sp_req id 0 rl rq ivl) = false.
Proof. reflexivity. Qed.

Lemma req_inv_init (rnd : Z) : req_inv (mk_world (sp_req_init rnd) None []).
Proof.
  unfold req_inv. cbn [req armed calls].
  replace (in_progress (sp_req_init rnd)) with false by reflexivity.
  split.
  - change (reqid (sp_req_init rnd)) with (Z.land rnd 0x7fffffff).
    rewrite land_mask31. apply Z.mod_pos_bound. lia.
  - split; [left; reflexivity|]. split; [reflexivity|].
    repeat split; reflexivity.
Qed.

Lemma req_inv_sent (w0 : world) (buf : list byte) :
  flags (req w0) = 0 ->
  heap_replay (false, false) (calls w0) = Some (false, false) ->
  sizeof_uint32_t + Z.of_nat (length buf) < 2 ^ 64 ->
  req_inv (sent_world w0 buf).
Proof.
  intros Hf Hh Hl. unfold req_inv. rewrite sent_world_in_progress.
  split; [rewrite sent_world_reqid; apply Z.mod_pos_bound; lia|].
  split; [right; cbn [sent_world req flags]; rewrite Hf; reflexivity|].
  split; [cbn [sent_world calls]; rewrite heap_replay_app, Hh; reflexivity|].
  split; [cbn [sent_world armed]; discriminate|].
  cbn [sent_world req request requestlen reqid]. split; [reflexivity|].
  rewrite length_app. cbn [length sp_putl].
  unfold size_t. rewrite Z.mod_small by (unfold sizeof_uint32_t in *; lia).
  unfold sizeof_uint32_t. lia.
Qed.

Lemma req_inv_cancelled (w : world) :
  req_inv w -> in_progress (req w) = true ->
  flags (req (cancelled_world w)) = 0 /\
  heap_replay (false, false) (calls (cancelled_world w)) = Some (false, false).
Proof.
  intros (_ & Hf & Hh & _) Hi. pose proof (flags_busy _ Hf Hi) as E.
  split; [cbn [cancelled_world req flags]; rewrite E; reflexivity|].
  cbn [cancelled_world calls]. rewrite heap_replay_app, Hh, Hi. reflexivity.
Qed.

Lemma sp_req_send_inv (w w' : world) (buf : list byte) (x r : rc) :
  req_inv w -> sizeof_uint32_t + Z.of_nat (length buf) < 2 ^ 64 ->
  sp_req_send buf x w = Done r w' -> req_inv w'.
Proof.
  intros Hinv Hl H. destruct (rc_ok_or_again x) eqn:Hx;
    [|rewrite sp_req_send_fatal in H by exact Hx; discriminate H].
  rewrite sp_req_send_ok in H by exact Hx. inversion H; subst; clear H.
  destruct (in_progress (req w)) eqn:Hi.
  - destruct (req_inv_cancelled w Hinv Hi) as [Hf Hh].
    apply req_inv_sent; assumption.
  - destruct Hinv as (_ & Hf & Hh & _). rewrite Hi in Hh.
    apply req_inv_sent; [exact (flags_idle _ Hf Hi) | exact Hh | exact Hl].
Qed.

Lemma sp_req_recv_fatal (w : world) (len : Z) (xrecv : Z -> xrecv_res) (e : errno) :
  in_progress (req w) = true ->
  xrecv (size_t (sizeof_uint32_t + len)) = XRECV_ERR e -> e <> EAGAIN ->
  sp_req_recv len xrecv w = Abort.
Proof.
  intros Hi He Hne. unfold sp_req_recv, bind at 1, get_req at 1.
  rewrite Hi. cbn [negb]. unfold_m. unfold emit. cbn [req armed calls].
  rewrite He. destruct e; [congruence|reflexivity..].
Qed.

Lemma sp_req_recv_cases (w w' : world) (len : Z) (xrecv : Z -> xrecv_res) res :
  sp_req_recv len xrecv w = Done res w' ->
  (in_progress (req w) = false /\ res = (RC_ERR EFSM, [], len) /\ w' = w) \/
  (in_progress (req w) = true /\
   reply_rejected (req w) (xrecv (size_t (sizeof_uint32_t + len))) /\
   res = (RC_ERR EAGAIN, [], len) /\
   w' = mk_world (req w) (armed w)
          (calls w ++ [EvAlloc BUF_REPLY (size_t (sizeof_uint32_t + len));
                       EvFree BUF_REPLY])) \/
  (in_progress (req w) = true /\
   exists reply replylen,
     xrecv (size_t (sizeof_uint32_t + len)) = XRECV_OK reply replylen /\
     sizeof_uint32_t <= replylen /\ Z.testbit (sp_getl reply) 31 = true /\
     wire_id reply = reqid (req w) /\
     res = (RC_OK,
            firstn (Z.to_nat (if len <? replylen - sizeof_uint32_t
                              then len else replylen - sizeof_uint32_t))
              (skipn 4 reply),
            replylen - sizeof_uint32_t) /\
     w' = mk_world
            (mk_sp_req (reqid (req w))
               (Z.land (flags (req w)) (Z.lnot SP_REQ_INPROGRESS)) 0 None
               (resend_ivl (req w)))
            None
            (calls w ++ [EvAlloc BUF_REPLY (size_t (sizeof_uint32_t + len));
                         EvTimerCancel; EvFree BUF_REPLY; EvFree BUF_REQUEST])).
Proof.
  intros H. destruct (bool_dec (in_progress (req w)) true) as [Hi|Hi].
  2: { apply not_true_is_false in Hi.
       left. rewrite sp_req_recv_idle in H by exact Hi. inversion H; subst.
       split; [exact Hi|]. split; reflexivity. }
  right.
  assert (Hrej : reply_rejected (req w) (xrecv (size_t (sizeof_uint32_t + len))) ->
                 in_progress (req w) = true /\
                 reply_rejected (req w) (xrecv (size_t (sizeof_uint32_t + len))) /\
                 res = (RC_ERR EAGAIN, [], len) /\
                 w' = mk_world (req w) (armed w)
                        (calls w ++ [EvAlloc BUF_REPLY (size_t (sizeof_uint32_t + len));
                                     EvFree BUF_REPLY])).
  { intros Hr. rewrite (sp_req_recv_reject w len xrecv Hi Hr) in H.
    inversion H; subst. split; [exact Hi|]. split; [exact Hr|].
    split; reflexivity. }
  destruct (xrecv (size_t (sizeof_uint32_t + len))) as [e|reply replylen] eqn:Ex.
  - destruct e.
    1: { left. apply Hrej. left. reflexivity. }
    all: erewrite (sp_req_recv_fatal w len xrecv _ Hi Ex) in H by discriminate;
      discriminate H.
  - destruct (Z.ltb_spec replylen sizeof_uint32_t) as [Hl|Hl].
    { left. apply Hrej. right. exists reply, replylen. split; [reflexivity|]. tauto. }
    destruct (Z.testbit (sp_getl reply) 31) eqn:Tb.
    2: { left. apply Hrej. right. exists reply, replylen. split; [reflexivity|]. tauto. }
    destruct (Z.eq_dec (wire_id reply) (reqid (req w))) as [Hw|Hw].
    2: { left. apply Hrej. right. exists reply, replylen. split; [reflexivity|]. tauto. }
    right. rewrite (sp_req_recv_match w len xrecv reply replylen Hi Ex Hl Tb Hw) in H.
    inversion H; subst. split; [exact Hi|]. exists reply, replylen.
    repeat split; assumption || reflexivity.
Qed.

Lemma sp_req_recv_inv (w w' : world) (len : Z) (xrecv : Z -> xrecv_res) res :
  req_inv w -> sp_req_recv len xrecv w = Done res w' -> req_inv w'.
Proof.
  intros Hinv H. apply sp_req_recv_cases in H.
  destruct H as [(_ & _ & ->) | [(Hi & _ & _ & ->) |
                 (Hi & reply & replylen & _ & _ & _ & _ & _ & ->)]].
  - exact Hinv.
  - destruct Hinv as (Hid & Hf & Hh & Hst). unfold req_inv. cbn [req armed calls].
    split; [exact Hid|]. split; [exact Hf|]. split; [|exact Hst].
    rewrite heap_replay_app, Hh, Hi. reflexivity.
  - destruct Hinv as (Hid & Hf & Hh & _). pose proof (flags_busy _ Hf Hi) as E.
    unfold req_inv. cbn [req armed calls reqid flags request requestlen].
    rewrite E. change (Z.land SP_REQ_INPROGRESS (Z.lnot SP_REQ_INPROGRESS)) with 0.
    rewrite in_progress_zero.
    split; [exact Hid|]. split; [left; reflexivity|].
    split; [rewrite heap_replay_app, Hh, Hi; reflexivity|].
    repeat split; reflexivity.
Qed.

Lemma sp_req_resend_done (w w' : world) (x : rc) (u : unit) :
  sp_req_resend_routine x w = Done u w' ->
  in_progress (req w) = true /\ rc_ok_or_again x = true.
Proof.
  unfold sp_req_resend_routine, bind at 1, get_req at 1. unfold sp_assert at 1.
  destruct (in_progress (req w)); [|discriminate].
  destruct x as [|[]]; unfold_m; unfold bind, ret, emit; cbn [req rc_ok_or_again];
    intros H; try discriminate H; split; reflexivity.
Qed.

Lemma sp_req_resend_inv (w w' : world) (x : rc) (u : unit) :
  req_inv w -> sp_req_resend_routine x w = Done u w' -> req_inv w'.
Proof.
  intros Hinv H. destruct (sp_req_resend_done w w' x u H) as [Hi Hx].
  rewrite sp_req_resend_ok in H by assumption. inversion H; subst; clear H.
  destruct Hinv as (Hid & Hf & Hh & Hst). rewrite Hi in Hh, Hst.
  unfold req_inv. cbn [req armed calls]. rewrite Hi.
  split; [exact Hid|]. split; [exact Hf|].
  split; [rewrite heap_replay_app, Hh; reflexivity|].
  split; [discriminate | exact (proj2 Hst)].
Qed.

Lemma sp_req_setopt_world (w w' : world) (opt v l : Z) (r : rc) :
  sp_req_setopt opt v l w = Done r w' ->
  w' = w \/ (r = RC_OK /\ w' = mk_world (set_resend_ivl (req w) v) (armed w) (calls w)).
Proof.
  unfold sp_req_setopt. unfold_m.
  split_ifs; intros H; inversion H; subst; auto.
Qed.

Lemma sp_req_setopt_inv (w w' : world) (opt v l : Z) (r : rc) :
  req_inv w -> sp_req_setopt opt v l w = Done r w' -> req_inv w'.
Proof.
  intros Hinv H. destruct (sp_req_setopt_world w w' opt v l r H) as [-> | [_ ->]].
  - exact Hinv.
  - exact Hinv.
Qed.

Lemma run_inv (ops : list op) :
  forall (w w' : world) (bufs : list (list byte)),
  req_inv w -> sends_fit ops = true -> run ops w = Done bufs w' -> req_inv w'.
Proof.
  induction ops as [|o ops IH]; intros w w' bufs Hinv Hfit H.
  - cbn in H. inversion H; subst. exact Hinv.
  - destruct o as [buf x | len xrecv | x | opt v l | opt l];
      cbn [run sends_fit] in H, Hfit; unfold bind at 1 in H.
    + apply andb_true_iff in Hfit as [Hl Hfit]. apply Z.ltb_lt in Hl.
      destruct (sp_req_send buf x w) as [r1 w1|] eqn:Es; [|discriminate H].
      unfold bind, get_req, ret in H.
      destruct (run ops w1) as [rest w2|] eqn:Er; [|discriminate H].
      inversion H; subst.
      exact (IH w1 w' rest (sp_req_send_inv w w1 buf x r1 Hinv Hl Es) Hfit Er).
    + destruct (sp_req_recv len xrecv w) as [r1 w1|] eqn:Es; [|discriminate H].
      exact (IH w1 w' bufs (sp_req_recv_inv w w1 len xrecv r1 Hinv Es) Hfit H).
    + destruct (sp_req_resend_routine x w) as [r1 w1|] eqn:Es; [|discriminate H].
      exact (IH w1 w' bufs (sp_req_resend_inv w w1 x r1 Hinv Es) Hfit H).
    + destruct (sp_req_setopt opt v l w) as [r1 w1|] eqn:Es; [|discriminate H].
      exact (IH w1 w' bufs (sp_req_setopt_inv w w1 opt v l r1 Hinv Es) Hfit H).
    + destruct (sp_req_getopt opt l w) as [r1 w1|] eqn:Es; [|discriminate H].
      rewrite (sp_req_getopt_same w w1 opt l r1 Es) in H. exact (IH w w' bufs Hinv Hfit H).
Qed.

Lemma req_inv_w_ping : req_inv w_ping.
Proof.
  unfold req_inv. vm_compute.
  split; [split; [intros H; discriminate H | reflexivity]|].
  split; [right; reflexivity|]. split; [reflexivity|].
  split; [intros H; discriminate H | split; reflexivity].
Qed.

(** ** Further properties of the code *)

(** X1: every socket state reached from [sp_req_init] by any sequence of
    sends (of buffers whose tagged length fits a [size_t]), receives,
    resends and option calls satisfies [req_inv]: 31-bit ID, in-progress
    exactly when the timer is armed and a request tagged with the current
    ID is stored with its length, and every buffer freed was allocated,
    with exactly the request buffer held while in progress. *)
Theorem req_inv_reachable :
  (forall rnd : Z, req_inv (mk_world (sp_req_init rnd) None [])) /\
  (forall (ops : list op) (w w' : world) (bufs : list (list byte)),
     req_inv w -> sends_fit ops = true -> run ops w = Done bufs w' -> req_inv w').
Proof.
  split; [exact req_inv_init | exact run_inv].
Qed.

Lemma req_inv_reachable_witness :
  match run ops_demo w_open with
  | Done _ w' => req_inv w'
  | Abort => False
  end.
Proof.
  destruct (run ops_demo w_open) as [bufs w'|] eqn:E.
  - apply (proj2 req_inv_reachable ops_demo w_open w' bufs).
    + apply (proj1 req_inv_reachable).
    + vm_compute. reflexivity.
    + exact E.
  - vm_compute in E. discriminate E.
Defined.

(** X2: in a state satisfying [req_inv], whenever the resend timer is
    armed its callback does not trip its assertion: (the raw socket
    accepting or pushing back) it redispatches the stored request, whose
    tag has bit 31 set and carries the current ID, rearms the timer, and
    the state still satisfies [req_inv]. *)
Theorem armed_timer_resends_current (w : world) (x : rc) :
  req_inv w -> armed w <> None -> rc_ok_or_again x = true ->
  exists b w', request (req w) = Some b /\
    sp_req_resend_routine x w = Done tt w' /\
    calls w' = calls w ++ [EvXreqSend b (Z.of_nat (length b));
                           EvTimerStart (resend_ivl (req w))] /\
    Z.testbit (sp_getl b) 31 = true /\ wire_id b = reqid (req w) /\
    req_inv w'.
Proof.
  intros Hinv Ha Hx.
  destruct (bool_dec (in_progress (req w)) true) as [Hi|Hi].
  2: { apply not_true_is_false in Hi. destruct Hinv as (_ & _ & _ & Hst).
       rewrite Hi in Hst. destruct Hst as [Hn _]. contradiction. }
  pose proof Hinv as (Hid & _ & _ & Hst). rewrite Hi in Hst. destruct Hst as [_ Hb].
  destruct (request (req w)) as [b|] eqn:Er; [|contradiction].
  destruct Hb as [Eb Hlen].
  pose proof (sp_req_resend_ok w x Hi Hx) as Hr. rewrite Er, Hlen in Hr.
  exists b. eexists. split; [reflexivity|]. split; [exact Hr|].
  split; [reflexivity|].
  destruct (wire_id_tagged (reqid (req w)) (skipn 4 b) Hid) as [Hg Hw].
  split; [|split].
  - rewrite Eb, Hg, Z.lor_spec. apply orb_true_r.
  - rewrite Eb. exact Hw.
  - exact (sp_req_resend_inv w _ x tt Hinv Hr).
Qed.

Lemma armed_timer_resends_current_witness :
  exists b w', request (req w_ping) = Some b /\
    sp_req_resend_routine RC_OK w_ping = Done tt w' /\
    wire_id b = reqid (req w_ping).
Proof.
  destruct (armed_timer_resends_current w_ping RC_OK)
    as (b & w' & Hb & Hr & _ & _ & Hw & _).
  - exact req_inv_w_ping.
  - vm_compute. intros H. discriminate H.
  - reflexivity.
  - exists b, w'. split; [exact Hb|]. split; [exact Hr | exact Hw].
Defined.



(** X4: [sp_req_recv] never sends on the raw socket and never starts the
    resend timer: the calls it makes are only allocations and frees, and
    possibly a timer cancel; it never changes the resend interval, and it
    leaves the timer as it was or disarmed. *)
Theorem recv_never_sends (w w' : world) (len : Z) (xrecv : Z -> xrecv_res) res :
  sp_req_recv len xrecv w = Done res w' ->
  exists added, calls w' = calls w ++ added /\
    Forall (fun e => match e with
                     | EvXreqSend _ _ | EvTimerStart _ => False
                     | _ => True
                     end) added /\
    resend_ivl (req w') = resend_ivl (req w) /\
    (armed w' = armed w \/ armed w' = None).
Proof.
  intros H. apply sp_req_recv_cases in H.
  destruct H as [(_ & _ & ->) | [(_ & _ & _ & ->) |
                 (_ & reply & replylen & _ & _ & _ & _ & _ & ->)]].
  - exists []. rewrite app_nil_r. split; [reflexivity|].
    split; [constructor|]. split; [reflexivity | left; reflexivity].
  - eexists. split; [reflexivity|]. split; [repeat constructor|].
    split; [reflexivity | left; reflexivity].
  - eexists. split; [reflexivity|]. split; [repeat constructor|].
    split; [reflexivity | right; reflexivity].
Qed.

Lemma recv_never_sends_witness :
  match sp_req_recv 10 recv_pong w_ping with
  | Done _ w' => resend_ivl (req w') = resend_ivl (req w_ping)
  | Abort => False
  end.
Proof.
  destruct (sp_req_recv 10 recv_pong w_ping) as [res w'|] eqn:E.
  - destruct (recv_never_sends w_ping w' 10 recv_pong res E) as (_ & _ & _ & Hi & _).
    exact Hi.
  - vm_compute in E. discriminate E.
Defined.

(** X5: [sp_req_recv] returns only [0], [-EAGAIN] or [-EFSM]; when it
    fails it copies nothing, leaves [*len] as it was and does not change
    the socket or its timer; an error of the raw socket other than
    [EAGAIN] fails the assertion. *)
Theorem recv_result_codes :
  (forall (w w' : world) (len : Z) (xrecv : Z -> xrecv_res) r out l,
     sp_req_recv len xrecv w = Done (r, out, l) w' ->
     (r = RC_OK \/ r = RC_ERR EAGAIN \/ r = RC_ERR EFSM) /\
     (r <> RC_OK -> out = [] /\ l = len /\ req w' = req w /\ armed w' = armed w)) /\
  (forall (w : world) (len : Z) (xrecv : Z -> xrecv_res) (e : errno),
     in_progress (req w) = true ->
     xrecv (size_t (sizeof_uint32_t + len)) = XRECV_ERR e -> e <> EAGAIN ->
     sp_req_recv len xrecv w = Abort).
Proof.
  split; [|exact sp_req_recv_fatal].
  intros w w' len xrecv r out l H. apply sp_req_recv_cases in H.
  destruct H as [(_ & Hr & ->) | [(_ & _ & Hr & ->) |
                 (_ & reply & replylen & _ & _ & _ & _ & Hr & ->)]];
    inversion Hr; subst.
  - split; [right; right; reflexivity|]. intros _. repeat split; reflexivity.
  - split; [right; left; reflexivity|]. intros _. repeat split; reflexivity.
  - split; [left; reflexivity|]. intros Hn. contradiction.
Qed.

Lemma recv_result_codes_witness :
  match sp_req_recv 10 xreq_recv_none w_ping with
  | Done (r, out, l) w' => out = [] /\ l = 10 /\ req w' = req w_ping
  | Abort => False
  end /\
  sp_req_recv 10 (fun _ => XRECV_ERR (EOTHER 104)) w_ping = Abort.
Proof.
  split.
  - destruct (sp_req_recv 10 xreq_recv_none w_ping) as [[[r out] l] w'|] eqn:E.
    + assert (Hr : r = RC_ERR EAGAIN) by (vm_compute in E; inversion E; reflexivity).
      destruct (proj1 recv_result_codes w_ping w' 10 xreq_recv_none r out l E)
        as [_ Hf].
      destruct (Hf ltac:(rewrite Hr; discriminate)) as (Ho & Hl & Hq & _).
      split; [exact Ho|]. split; [exact Hl | exact Hq].
    + vm_compute in E. discriminate E.
  - apply (proj2 recv_result_codes w_ping 10 _ (EOTHER 104)).
    + vm_compute. reflexivity.
    + reflexivity.
    + discriminate.
Defined.

(** X6: [sp_req_recv] succeeds only when a request is in progress and the
    raw socket delivered a reply of at least 4 bytes whose tag has bit 31
    set and carries the current ID; it then reports the reply's payload
    length, copies [min len payload-length] bytes of the payload, and
    leaves the socket idle (timer disarmed, no request stored) with the
    same ID and resend interval. *)
Theorem recv_ok_only_on_match (w w' : world) (len : Z) (xrecv : Z -> xrecv_res) out l :
  sp_req_recv len xrecv w = Done (RC_OK, out, l) w' ->
  in_progress (req w) = true /\
  (exists reply replylen,
     xrecv (size_t (sizeof_uint32_t + len)) = XRECV_OK reply replylen /\
     sizeof_uint32_t <= replylen /\ Z.testbit (sp_getl reply) 31 = true /\
     wire_id reply = reqid (req w) /\ l = replylen - sizeof_uint32_t /\
     out = firstn (Z.to_nat (Z.min len l)) (skipn 4 reply)) /\
  armed w' = None /\ request (req w') = None /\ requestlen (req w') = 0 /\
  in_progress (req w') = false /\ reqid (req w') = reqid (req w) /\
  resend_ivl (req w') = resend_ivl (req w).
Proof.
  intros H. apply sp_req_recv_cases in H.
  destruct H as [(_ & Hr & _) | [(_ & _ & Hr & _) |
                 (Hi & reply & replylen & Ex & Hl & Hb & Hw & Hr & ->)]];
    inversion Hr; subst.
  split; [exact Hi|]. split.
  - exists reply, replylen. repeat split; try assumption.
    f_equal. f_equal.
    destruct (Z.ltb_spec len (replylen - sizeof_uint32_t)); lia.
  - cbn [req armed request requestlen reqid resend_ivl].
    split; [reflexivity|]. split; [reflexivity|]. split; [reflexivity|].
    split; [|split; reflexivity].
    unfold in_progress. cbn [flags]. rewrite in_progress_cleared. reflexivity.
Qed.

Lemma recv_ok_only_on_match_witness :
  match sp_req_recv 10 recv_pong w_ping with
  | Done (RC_OK, out, l) w' => l = 4 /\ armed w' = None
  | _ => False
  end.
Proof.
  destruct (sp_req_recv 10 recv_pong w_ping) as [[[r out] l] w'|] eqn:E.
  - assert (Hr : r = RC_OK) by (vm_compute in E; inversion E; reflexivity).
    subst r.
    destruct (recv_ok_only_on_match w_ping w' 10 recv_pong out l E)
      as (_ & (reply & replylen & Ex & _ & _ & _ & Hl & _) & Ha & _).
    vm_compute in Ex. inversion Ex; subst.
    split; [vm_compute; reflexivity | exact Ha].
  - vm_compute in E. discriminate E.
Defined.

(** X7: a [send] followed by a reply that echoes the first 4 bytes of the
    stored request (as the REP side does) and carries a payload fitting
    the caller's buffer is delivered whole by [recv], which reports its
    length and leaves the socket idle with no timer armed. *)
Theorem send_then_echoed_reply (w : world) (buf payload : list byte) (x : rc)
    (len : Z) :
  rc_ok_or_again x = true ->
  Z.of_nat (length payload) <= len ->
  sizeof_uint32_t + len < 2 ^ 64 ->
  exists w1 b w2,
    sp_req_send buf x w = Done RC_OK w1 /\ request (req w1) = Some b /\
    sp_req_recv len (xreq_recv_echo (firstn 4 b ++ payload)) w1 =
      Done (RC_OK, payload, Z.of_nat (length payload)) w2 /\
    in_progress (req w2) = false /\ armed w2 = None /\ request (req w2) = None.
Proof.
  intros Hx Hp Hl.
  rewrite sp_req_send_ok by exact Hx.
  set (w0 := if in_progress (req w) then cancelled_world w else w).
  set (t := Z.lor (reqid (req (sent_world w0 buf))) 0x80000000).
  assert (Hid : 0 <= reqid (req (sent_world w0 buf)) < 2 ^ 31)
    by (rewrite sent_world_reqid; apply Z.mod_pos_bound; lia).
  destruct (wire_id_tagged _ payload Hid) as [Hg Hw].
  exists (sent_world w0 buf), (sp_putl t ++ buf).
  change (firstn 4 (sp_putl t ++ buf)) with (sp_putl t).
  assert (HL : Z.of_nat (length (sp_putl t ++ payload)) - sizeof_uint32_t =
               Z.of_nat (length payload))
    by (rewrite length_app; cbn [length sp_putl]; unfold sizeof_uint32_t; lia).
  rewrite (sp_req_recv_match (sent_world w0 buf) len _ (sp_putl t ++ payload)
             (Z.of_nat (length (sp_putl t ++ payload)))).
  - rewrite HL.
    replace (if len <? Z.of_nat (length payload) then len
             else Z.of_nat (length payload))
      with (Z.of_nat (length payload))
      by (destruct (Z.ltb_spec len (Z.of_nat (length payload))); lia).
    change (skipn 4 (sp_putl t ++ payload)) with payload.
    rewrite Nat2Z.id, firstn_all.
    eexists. split; [reflexivity|]. split; [reflexivity|]. split; [reflexivity|].
    split; [|split; reflexivity].
    unfold in_progress. cbn [req flags]. rewrite in_progress_cleared. reflexivity.
  - apply sent_world_in_progress.
  - reflexivity.
  - rewrite length_app. cbn [length sp_putl]. unfold sizeof_uint32_t. lia.
  - unfold t. rewrite Hg, Z.lor_spec. apply orb_true_r.
  - exact Hw.
Qed.

Lemma send_then_echoed_reply_witness :
  exists w1 b w2,
    sp_req_send ping RC_OK w_open = Done RC_OK w1 /\ request (req w1) = Some b /\
    sp_req_recv 10 (xreq_recv_echo (firstn 4 b ++ pong)) w1 =
      Done (RC_OK, pong, 4) w2.
Proof.
  destruct (send_then_echoed_reply w_open ping pong RC_OK 10)
    as (w1 & b & w2 & Hs & Hb & Hr & _).
  - reflexivity.
  - vm_compute. intros H. discriminate H.
  - vm_compute. reflexivity.
  - exists w1, b, w2. split; [exact Hs|]. split; [exact Hb | exact Hr].
Defined.

(** X8: while a request is in progress, the resend timer firing [n] times
    in a row (the raw socket accepting or pushing back) sends the same
    stored buffer [n] times and rearms the timer each time; it allocates
    and frees nothing and leaves the socket record as it was. *)
Theorem resends_repeat_without_alloc (n : nat) (w : world) (x : rc) :
  in_progress (req w) = true -> rc_ok_or_again x = true ->
  run (repeat (OpResend x) n) w =
  Done []
    (mk_world (req w)
       (match n with O => armed w | S _ => Some (resend_ivl (req w)) end)
       (calls w ++
        concat (repeat [EvXreqSend (match request (req w) with
                                    | Some b => b | None => [] end)
                          (requestlen (req w));
                        EvTimerStart (resend_ivl (req w))] n))).
Proof.
  intros Hi Hx. revert w Hi. induction n as [|n IH]; intros w Hi.
  - destruct w as [r a cs]. cbn. rewrite app_nil_r. reflexivity.
  - cbn [repeat run]. unfold bind at 1. rewrite sp_req_resend_ok by assumption.
    rewrite IH by exact Hi. cbn [req armed calls repeat concat].
    rewrite <- app_assoc. destruct n; reflexivity.
Qed.

Lemma resends_repeat_without_alloc_witness :
  run (repeat (OpResend RC_OK) 3) w_ping =
  Done [] (mk_world (req w_ping) (Some 60000)
    (calls w_ping ++
     concat (repeat [EvXreqSend (sp_putl 0x92345679 ++ ping) 8;
                     EvTimerStart 60000] 3))).
Proof.
  rewrite (resends_repeat_without_alloc 3 w_ping RC_OK).
  - vm_compute. reflexivity.
  - vm_compute. reflexivity.
  - reflexivity.
Defined.

(** X9: [sp_req_send] never reports an error: when the raw socket accepts
    the request or pushes back with [EAGAIN] it returns [0] with the
    request in progress and the timer armed for the current interval; any
    other raw error fails the assertion. *)
Theorem send_absorbs_pushback (w : world) (buf : list byte) :
  (forall x, rc_ok_or_again x = true ->
     exists w', sp_req_send buf x w = Done RC_OK w' /\
       in_progress (req w') = true /\
       armed w' = Some (resend_ivl (req w)) /\
       resend_ivl (req w') = resend_ivl (req w)) /\
  (forall x, rc_ok_or_again x = false -> sp_req_send buf x w = Abort) /\
  (forall x r w', sp_req_send buf x w = Done r w' -> r = RC_OK).
Proof.
  split; [|split].
  - intros x Hx. rewrite sp_req_send_ok by exact Hx.
    eexists. split; [reflexivity|]. split; [apply sent_world_in_progress|].
    destruct (in_progress (req w)); split; reflexivity.
  - intros x Hx. apply sp_req_send_fatal. exact Hx.
  - intros x r w' H. destruct (rc_ok_or_again x) eqn:Hx.
    + rewrite sp_req_send_ok in H by exact Hx. inversion H. reflexivity.
    + rewrite sp_req_send_fatal in H by exact Hx. discriminate H.
Qed.

Lemma send_absorbs_pushback_witness :
  (exists w', sp_req_send pong (RC_ERR EAGAIN) w_ping = Done RC_OK w' /\
     armed w' = Some 60000) /\
  sp_req_send pong (RC_ERR (EOTHER 32)) w_ping = Abort.
Proof.
  destruct (send_absorbs_pushback w_ping pong) as (H1 & H2 & _).
  split.
  - destruct (H1 (RC_ERR EAGAIN) eq_refl) as (w' & Hs & _ & Ha & _).
    exists w'. split; [exact Hs | exact Ha].
  - apply H2. reflexivity.
Defined.

(** X10: the option calls never abort, never call the allocator, the raw
    socket or the timer service, and never touch the stored request, the
    ID or the flags: [sp_req_setopt] changes at most the resend interval
    (an armed timer keeps the interval it was started with) and
    [sp_req_getopt] changes nothing. *)
Theorem option_calls_touch_only_interval (w : world) :
  (forall opt v l, exists r w', sp_req_setopt opt v l w = Done r w' /\
     armed w' = armed w /\ calls w' = calls w /\
     reqid (req w') = reqid (req w) /\ flags (req w') = flags (req w) /\
     request (req w') = request (req w) /\
     requestlen (req w') = requestlen (req w) /\
     (resend_ivl (req w') = resend_ivl (req w) \/ resend_ivl (req w') = v)) /\
  (forall opt l, exists res, sp_req_getopt opt l w = Done res w).
Proof.
  split.
  - intros opt v l.
    destruct (sp_req_setopt opt v l w) as [r w'|] eqn:E.
    + exists r, w'. split; [reflexivity|].
      destruct (sp_req_setopt_world w w' opt v l r E) as [-> | [_ ->]].
      * repeat split; auto.
      * cbn [req armed calls reqid flags request requestlen resend_ivl set_resend_ivl].
        repeat split; auto.
    + exfalso. revert E. unfold sp_req_setopt. unfold_m. split_ifs; discriminate.
  - intros opt l. unfold sp_req_getopt. unfold_m.
    split_ifs; eexists; reflexivity.
Qed.
